(** * QR-code generation script: embedding and verification

    The repository consists of [scripts/src/main.py] (the procedure
    [generate_qr_code] and the entry point [main]) and
    [scripts/tests/test_main.py] (one smoke test).  All encoding and image
    work is done by the external [qrcode] package; the repository's own code
    is the sequence of calls it makes to that package, to [print] and to
    [os].

    The embedding therefore has three layers:
    - the Python process state the scripts can observe ([World]) and a
      state-and-exception monad [M] over it;
    - the external collaborator as an interface ([QRLibrary]) whose
      operations are parameters of the development, every call being
      recorded in a call log;
    - the two source files, translated statement by statement.

    Conventions of the model.  Paths are compared as strings and the file
    system is a finite map from paths to contents, without directories or
    permissions of its own: whether a path can be written is up to the
    collaborator's [save].  Standard output accepts every line.  The
    collaborator's operations are functions of their arguments. *)

From stdpp Require Import base strings gmap list.
From Stdlib Require Import ZArith Strings.Byte Strings.Ascii.

Local Open Scope string_scope.
Local Open Scope Z_scope.
Local Open Scope list_scope.

(** ** Python values *)

(** A raised exception: its class name and its message. *)
Record exn := Exn { exn_class : string; exn_msg : string }.

(** Outcome of evaluating a statement or a call. *)
Inductive result (A : Type) : Type :=
| Ok (a : A)
| Raise (e : exn).
Arguments Ok {A} a.
Arguments Raise {A} e.

Definition outcome {A} (r : result A) : option exn :=
  match r with
  | Ok _ => None
  | Raise e => Some e
  end.

(** [qrcode.constants.ERROR_CORRECT_*]. *)
Inductive ErrorCorrection :=
| ERROR_CORRECT_L
| ERROR_CORRECT_M
| ERROR_CORRECT_Q
| ERROR_CORRECT_H.

(** ** The external collaborator

    The [qrcode] package (and the imaging backend behind [img.save]) is not
    part of the repository.  The first five fields of this class are its
    entry points used by [main.py]; the last three are observations on its
    objects in which its contracts are stated.  The [QRCode] object is local
    to one call of [generate_qr_code] and never aliased, so its in-place
    updates ([add_data], [make]) are modelled as functions returning the
    updated object.  [save] acts on the file system and may change it even
    when it raises (a partial write). *)
Class QRLibrary := {
  QRCode : Type;
  PilImage : Type;
  (** [qrcode.QRCode(version=, error_correction=, box_size=, border=)] *)
  QRCode_new : Z → ErrorCorrection → Z → Z → result QRCode;
  (** [qr.add_data(data)] *)
  add_data : QRCode → string → result QRCode;
  (** [qr.make(fit=)] *)
  make : QRCode → bool → result QRCode;
  (** [qr.make_image(fill_color=, back_color=)] *)
  make_image : QRCode → string → string → result PilImage;
  (** [img.save(filename)] *)
  save : PilImage → string → gmap string (list byte) →
         result unit * gmap string (list byte);
  (** the attribute [qr.version] *)
  qr_version : QRCode → Z;
  (** whether the data held by the object fits symbol version [v] at the
      object's error-correction level *)
  payload_fits : QRCode → Z → bool;
  (** the serialised form of an image, as [save] writes it *)
  image_bytes : PilImage → list byte;
}.

(** A call made to the collaborator, with its arguments. *)
Inductive LibCall :=
| CallQRCode (version : Z) (error_correction : ErrorCorrection)
             (box_size border : Z)
| CallAddData (data : string)
| CallMake (fit : bool)
| CallMakeImage (fill_color back_color : string)
| CallSave (filename : string).

(** ** Process state *)

(** What the scripts can observe of the Python process: the file system
    (path to content), the lines printed so far, [sys.argv], [sys.path], and
    the log of calls made to the collaborator, each with the exception it
    raised, if any. *)
Record World := mkWorld {
  files : gmap string (list byte);
  stdout : list string;
  sys_argv : list string;
  sys_path : list string;
  lib_log : list (LibCall * option exn);
}.

Definition set_files (fs : gmap string (list byte)) (w : World) : World :=
  mkWorld fs (stdout w) (sys_argv w) (sys_path w) (lib_log w).
Definition set_stdout (out : list string) (w : World) : World :=
  mkWorld (files w) out (sys_argv w) (sys_path w) (lib_log w).
Definition set_sys_argv (argv : list string) (w : World) : World :=
  mkWorld (files w) (stdout w) argv (sys_path w) (lib_log w).
Definition set_sys_path (p : list string) (w : World) : World :=
  mkWorld (files w) (stdout w) (sys_argv w) p (lib_log w).
Definition set_lib_log (l : list (LibCall * option exn)) (w : World) : World :=
  mkWorld (files w) (stdout w) (sys_argv w) (sys_path w) l.

(** ** The monad of Python statements

    A statement transforms the world and either completes or raises.  The
    world is kept when an exception is raised: effects that happened before
    the failure stay. *)
Definition M (A : Type) : Type := World → result A * World.

#[export] Instance M_ret : MRet M := λ A (a : A) w, (Ok a, w).
#[export] Instance M_bind : MBind M := λ A B (f : A → M B) (m : M A) w,
  match m w with
  | (Ok a, w') => f a w'
  | (Raise e, w') => (Raise e, w')
  end.

Definition raise {A} (e : exn) : M A := λ w, (Raise e, w).

(** [try: body finally: cleanup].  The cleanup runs whether or not the body
    raised; the body's outcome stands unless the cleanup itself raises. *)
Definition try_finally {A} (body : M A) (cleanup : M unit) : M A := λ w,
  let '(r, w1) := body w in
  match cleanup w1 with
  | (Ok _, w2) => (r, w2)
  | (Raise e, w2) => (Raise e, w2)
  end.

(** [if cond: body], without an [else] branch. *)
Definition if_ (cond : M bool) (body : M unit) : M unit :=
  cond ≫= λ b : bool, if b then body else mret tt.

(** [assert cond, msg] *)
Definition assert_ (cond : bool) (msg : string) : M unit :=
  if cond then mret tt else raise (Exn "AssertionError" msg).

(** [print(s)]: one more line on standard output, which takes every line. *)
Definition print (s : string) : M unit := λ w,
  (Ok tt, set_stdout (stdout w ++ [s]) w).

(** [os.path.exists(path)] *)
Definition os_path_exists (path : string) : M bool := λ w,
  (Ok (bool_decide (is_Some (files w !! path))), w).

(** [os.remove(path)] *)
Definition os_remove (path : string) : M unit := λ w,
  match files w !! path with
  | Some _ => (Ok tt, set_files (delete path (files w)) w)
  | None => (Raise (Exn "FileNotFoundError" path), w)
  end.

(** [os.path.getsize(path)] *)
Definition os_path_getsize (path : string) : M Z := λ w,
  match files w !! path with
  | Some content => (Ok (Z.of_nat (length content)), w)
  | None => (Raise (Exn "FileNotFoundError" path), w)
  end.

(** ** Calls to the collaborator, logged *)

Definition log_call (c : LibCall) (o : option exn) (w : World) : World :=
  set_lib_log (lib_log w ++ [(c, o)]) w.

Definition lib_call {A} (c : LibCall) (r : result A) : M A := λ w,
  (r, log_call c (outcome r) w).

Section Program.
Context {L : QRLibrary}.

Definition qrcode_QRCode (version : Z) (error_correction : ErrorCorrection)
    (box_size border : Z) : M QRCode :=
  lib_call (CallQRCode version error_correction box_size border)
           (QRCode_new version error_correction box_size border).

Definition qr_add_data (qr : QRCode) (data : string) : M QRCode :=
  lib_call (CallAddData data) (add_data qr data).

Definition qr_make (qr : QRCode) (fit : bool) : M QRCode :=
  lib_call (CallMake fit) (make qr fit).

Definition qr_make_image (qr : QRCode) (fill_color back_color : string)
    : M PilImage :=
  lib_call (CallMakeImage fill_color back_color)
           (make_image qr fill_color back_color).

Definition img_save (img : PilImage) (filename : string) : M unit := λ w,
  let '(r, fs) := save img filename (files w) in
  (r, log_call (CallSave filename) (outcome r) (set_files fs w)).

(** ** [scripts/src/main.py] *)

Definition generate_qr_code (url output_filename : string) : M unit :=
  print ("Generating QR code for: " +:+ url);;
  qr ← qrcode_QRCode 1 ERROR_CORRECT_L 10 4;
  qr ← qr_add_data qr url;
  qr ← qr_make qr true;
  img ← qr_make_image qr "black" "white";
  img_save img output_filename;;
  print ("Successfully saved QR code to " +:+ output_filename).

Definition main : M unit :=
  let url := "https://irishlab.io" in
  let output_filename := "website_qr.png" in
  generate_qr_code url output_filename.

(** The module body after the two definitions:
    [if __name__ == "__main__": main()]. *)
Definition main_module (__name__ : string) : M unit :=
  if String.eqb __name__ "__main__" then main else mret tt.

End Program.

(** ** [scripts/tests/test_main.py] *)

(** What the test module needs from the interpreter besides [print] and
    [os]: the import machinery and three pure functions of [os.path].  The
    outcome of an [import] statement is a function of [sys.path] and of the
    file system at the moment the statement runs ([None]: the module was
    found and its body ran to the end). *)
Class PythonRuntime := {
  import_outcome : list string → gmap string (list byte) → string →
                   option exn;
  os_path_abspath : string → string;
  os_path_dirname : string → string;
  os_path_join : string → string → string;
}.

Section TestModule.
Context {L : QRLibrary} {R : PythonRuntime}.

(** [import name] *)
Definition import_ (name : string) : M unit := λ w,
  match import_outcome (sys_path w) (files w) name with
  | None => (Ok tt, w)
  | Some e => (Raise e, w)
  end.

(** [sys.path.append(entry)] *)
Definition sys_path_append (entry : string) : M unit := λ w,
  (Ok tt, set_sys_path (sys_path w ++ [entry]) w).

(** The directory the module adds to [sys.path]. *)
Definition src_directory (__file__ : string) : string :=
  os_path_join
    (os_path_dirname (os_path_dirname (os_path_abspath __file__))) "src".

(** The module body, in source order.  [from main import generate_qr_code]
    imports [main] and binds a name that [main.py] defines; the trailing
    [def] only binds a name. *)
Definition test_main_module (__file__ : string) : M unit :=
  import_ "os";;
  import_ "sys";;
  import_ "main";;
  sys_path_append (src_directory __file__).

Definition test_generate_qr_code : M unit :=
  let url := "https://example.com" in
  let filename := "test_qr.png" in
  if_ (os_path_exists filename) (os_remove filename);;
  try_finally
    (generate_qr_code url filename;;
     b ← os_path_exists filename;
     assert_ b "QR code image file was not created";;
     n ← os_path_getsize filename;
     assert_ (0 <? n) "QR code image file is empty")
    (if_ (os_path_exists filename) (os_remove filename)).

End TestModule.

(** ** The interpreter's top level

    A script that ends normally exits with status 0; an exception that
    reaches the top level ends the process with status 1. *)
Definition exit_status {A} (r : result A) : Z :=
  match r with
  | Ok _ => 0
  | Raise _ => 1
  end.

(** [python main.py]: the module body runs with [__name__ = "__main__"]. *)
Definition run_script {L : QRLibrary} (w : World) : Z * World :=
  let '(r, w') := main_module "__main__" w in (exit_status r, w').

(** ** What the program relies on in the collaborator *)

(** The calls of one complete run of [generate_qr_code], in order. *)
Definition lib_calls (url output_filename : string) : list LibCall :=
  [ CallQRCode 1 ERROR_CORRECT_L 10 4;
    CallAddData url;
    CallMake true;
    CallMakeImage "black" "white";
    CallSave output_filename ].

(** A successful [img.save(filename)] leaves the serialised image at
    [filename], and a serialised image is never empty. *)
Record SaveContract (L : QRLibrary) : Prop := {
  save_writes : ∀ (img : PilImage) p fs fs',
    save img p fs = (Ok tt, fs') → fs' !! p = Some (image_bytes img);
  image_bytes_nonempty : ∀ img : PilImage, image_bytes img ≠ [];
}.

(** Version bookkeeping of the encoder: the constructor stores the version
    it is given, [add_data] keeps it, and [make(fit=True)] succeeds whenever
    some version from the configured one upwards holds the data, leaving
    the object at such a version. *)
Record FitContract (L : QRLibrary) : Prop := {
  new_version : ∀ v ec b bd (qr : QRCode),
    QRCode_new v ec b bd = Ok qr → qr_version qr = v;
  add_data_version : ∀ (qr qr' : QRCode) s,
    add_data qr s = Ok qr' → qr_version qr' = qr_version qr;
  make_fit : ∀ (qr : QRCode) v,
    qr_version qr ≤ v → payload_fits qr v = true →
    ∃ qr', make qr true = Ok qr' ∧
           qr_version qr ≤ qr_version qr' ∧
           payload_fits qr (qr_version qr') = true;
}.

Definition file_nonempty (w : World) (path : string) : Prop :=
  ∃ content, files w !! path = Some content ∧ (0 < length content)%nat.

(** [img] is the image a run for [url] hands to [save]: the result of the
    four encoder calls in source order. *)
Definition rendered {L : QRLibrary} (url : string) (img : PilImage) : Prop :=
  ∃ qr0 qr1 qr2,
    QRCode_new 1 ERROR_CORRECT_L 10 4 = Ok qr0 ∧
    add_data qr0 url = Ok qr1 ∧
    make qr1 true = Ok qr2 ∧
    make_image qr2 "black" "white" = Ok img.

(** [img.save(filename)] touches no path other than [filename], whether it
    completes or raises. *)
Definition SaveFrame (L : QRLibrary) : Prop :=
  ∀ (img : PilImage) p fs q, q ≠ p → (save img p fs).2 !! q = fs !! q.

(** ** A model of the collaborator

    One concrete library behind the interface, detailed enough to run the
    scripts on concrete inputs: an encoder with symbol versions 1 to 40 and
    the byte-mode capacities of error-correction level L (the only level the
    program asks for), and a writer that stores a signature followed by the
    payload.  The theorems below hold for every library; this one shows
    their hypotheses can be met and gives the runs used as examples. *)
Module Model.

Record qr_object := QR {
  version : Z;
  error_correction : ErrorCorrection;
  box_size : Z;
  border : Z;
  data_list : list string;
}.

Record image := Img {
  img_version : Z;
  img_box_size : Z;
  img_border : Z;
  img_fill : string;
  img_back : string;
  img_data : list string;
}.

(** Data bytes a symbol of version 1, 2, ..., 40 holds at level L. *)
Definition byte_capacity : list Z :=
  [ 17; 32; 53; 78; 106; 134; 154; 192; 230; 271;
    321; 367; 425; 458; 520; 586; 644; 718; 792; 858;
    929; 1003; 1091; 1171; 1273; 1367; 1465; 1528; 1628; 1732;
    1840; 1952; 2068; 2188; 2303; 2431; 2563; 2699; 2809; 2953 ].

Definition payload_length (data : list string) : Z :=
  foldr (λ s n, Z.of_nat (String.length s) + n) 0 data.

Definition fits (qr : qr_object) (v : Z) : bool :=
  (1 <=? v) && (v <=? 40) &&
  match byte_capacity !! Z.to_nat (v - 1) with
  | Some c => payload_length (data_list qr) <=? c
  | None => false
  end.

Definition with_version (v : Z) (qr : qr_object) : qr_object :=
  QR v (error_correction qr) (box_size qr) (border qr) (data_list qr).

Definition new (v : Z) (ec : ErrorCorrection) (b bd : Z)
    : result qr_object :=
  if negb ((1 <=? v) && (v <=? 40)) then
    Raise (Exn "ValueError" "Invalid version")
  else if b <=? 0 then
    Raise (Exn "ValueError" "Invalid box size")
  else if bd <? 0 then
    Raise (Exn "ValueError" "Invalid border value")
  else Ok (QR v ec b bd []).

Definition add (qr : qr_object) (s : string) : result qr_object :=
  Ok (QR (version qr) (error_correction qr) (box_size qr) (border qr)
         (data_list qr ++ [s])).

(** The smallest version from [start] upwards that holds the data. *)
Definition best_fit (qr : qr_object) (start : Z) : option Z :=
  list_find (fits qr) (seqZ start (41 - start)) ≫= λ '(_, v), Some v.

Definition mk (qr : qr_object) (fit : bool) : result qr_object :=
  if fit then
    match best_fit qr (version qr) with
    | Some v => Ok (with_version v qr)
    | None => Raise (Exn "DataOverflowError" "")
    end
  else if fits qr (version qr) then Ok qr
  else Raise (Exn "DataOverflowError" "").

Definition known_color (c : string) : bool :=
  bool_decide (c ∈ ["black"; "white"]).

Definition mk_image (qr : qr_object) (fill back : string) : result image :=
  if known_color fill && known_color back then
    Ok (Img (version qr) (box_size qr) (border qr) fill back (data_list qr))
  else Raise (Exn "ValueError" "unknown color specifier").

Definition signature : list byte :=
  [x89; x50; x4e; x47; x0d; x0a; x1a; x0a].

Definition bytes_of (img : image) : list byte :=
  signature ++ mjoin (String.list_byte_of_string <$> img_data img).

(** The empty path cannot be opened; every other path is writable. *)
Definition write (img : image) (path : string)
    (fs : gmap string (list byte)) : result unit * gmap string (list byte) :=
  if String.eqb path "" then (Raise (Exn "FileNotFoundError" path), fs)
  else (Ok tt, <[path := bytes_of img]> fs).

Definition library : QRLibrary := {|
  QRCode := qr_object;
  PilImage := image;
  QRCode_new := new;
  add_data := add;
  make := mk;
  make_image := mk_image;
  save := write;
  qr_version := version;
  payload_fits := fits;
  image_bytes := bytes_of;
|}.

Definition read_only_write (img : image) (path : string)
    (fs : gmap string (list byte)) : result unit * gmap string (list byte) :=
  (Raise (Exn "PermissionError" path), fs).

(** The same library on a read-only file system: every [save] raises. *)
Definition read_only_library : QRLibrary := {|
  QRCode := qr_object;
  PilImage := image;
  QRCode_new := new;
  add_data := add;
  make := mk;
  make_image := mk_image;
  save := read_only_write;
  qr_version := version;
  payload_fits := fits;
  image_bytes := bytes_of;
|}.

(** A runtime in which [os], [sys] and any module whose file lies in a
    directory of [sys.path] can be imported, with Unix path functions on
    already absolute, normalised paths. *)
Definition module_file (dir name : string) : string :=
  dir +:+ "/" +:+ name +:+ ".py".

Definition imports (path : list string) (fs : gmap string (list byte))
    (name : string) : option exn :=
  if bool_decide (name ∈ ["os"; "sys"]) then None
  else if bool_decide (Exists (λ d, is_Some (fs !! module_file d name)) path)
  then None
  else Some (Exn "ModuleNotFoundError" name).

Fixpoint drop_last_component (reversed : list Ascii.ascii)
    : list Ascii.ascii :=
  match reversed with
  | [] => []
  | c :: rest =>
      if Ascii.eqb c "/"%char then rest else drop_last_component rest
  end.

Definition dirname (p : string) : string :=
  String.string_of_list_ascii
    (reverse (drop_last_component (reverse (String.list_ascii_of_string p)))).

Definition join (a b : string) : string := a +:+ "/" +:+ b.

Definition runtime : PythonRuntime := {|
  import_outcome := imports;
  os_path_abspath := λ p, p;
  os_path_dirname := dirname;
  os_path_join := join;
|}.

End Model.

(** Worlds and inputs of the example runs. *)

Definition fresh_world : World := mkWorld ∅ [] [] [] [].

(** A world with an earlier, different file at the output path. *)
Definition used_world : World :=
  mkWorld {[ "website_qr.png" := [x00] ]} ["earlier output"] ["main.py"]
          ["/repo/scripts/src"] [].

(** A world with a leftover scratch file of the smoke test and an unrelated
    file. *)
Definition littered_world : World :=
  mkWorld {[ "test_qr.png" := [x00]; "notes.txt" := [x01; x02] ]}
          [] [] [] [].

(** 3000 bytes: more than a version 40 symbol holds at level L. *)
Definition oversized_target : string :=
  String.string_of_list_ascii (replicate 3000 "a"%char).

(** * Properties of [generate_qr_code] *)

(** Unfolds one run of [generate_qr_code] and splits on the outcome of each
    call to the collaborator, in source order: five failure cases and the
    complete run. *)
Ltac unfold_generate :=
  unfold generate_qr_code, qrcode_QRCode, qr_add_data, qr_make,
    qr_make_image, img_save, lib_call, print;
  cbv [mbind M_bind mret M_ret]; cbn.

Ltac generate_cases :=
  unfold_generate;
  destruct (QRCode_new 1 ERROR_CORRECT_L 10 4) as [?qr|?e] eqn:?Hnew; cbn;
  [ match goal with
    | |- context [add_data ?q ?u] =>
        destruct (add_data q u) as [?qr|?e] eqn:?Hadd; cbn
    end;
    [ match goal with
      | |- context [make ?q true] =>
          destruct (make q true) as [?qr|?e] eqn:?Hmake; cbn
      end;
      [ match goal with
        | |- context [make_image ?q ?f ?b] =>
            destruct (make_image q f b) as [?img|?e] eqn:?Himg; cbn
        end;
        [ match goal with
          | |- context [save ?i ?p ?m] =>
              destruct (save i p m) as [[[]|?e] ?fs] eqn:?Hsave; cbn
          end
        | ]
      | ]
    | ]
  | ].

Section Generate.
Context {L : QRLibrary}.

(** The calls logged by one run are the calls of [lib_calls], in order, up
    to and including the first one that raises; only the last logged call
    can have raised, and its outcome is the outcome of the run. *)
Lemma generate_qr_code_trace url out w :
  ∃ n c,
    lib_calls url out !! n = Some c ∧
    lib_log (generate_qr_code url out w).2 =
      lib_log w ++ ((λ c, (c, None)) <$> take n (lib_calls url out)) ++
      [(c, outcome (generate_qr_code url out w).1)] ∧
    ((generate_qr_code url out w).1 = Ok tt → n = 4%nat).
Proof.
  generate_cases.
  - exists 4%nat, (CallSave out). cbn. by rewrite <- !app_assoc.
  - exists 4%nat, (CallSave out). cbn. by rewrite <- !app_assoc.
  - exists 3%nat, (CallMakeImage "black" "white"). cbn.
    by rewrite <- !app_assoc.
  - exists 2%nat, (CallMake true). cbn. by rewrite <- !app_assoc.
  - exists 1%nat, (CallAddData url). cbn. by rewrite <- !app_assoc.
  - exists 0%nat, (CallQRCode 1 ERROR_CORRECT_L 10 4). by cbn.
Qed.

(** A run in which every call to the collaborator succeeds completes, and
    this is the world it leaves. *)
Lemma generate_qr_code_returns url out w qr0 qr1 qr2 img fs :
  QRCode_new 1 ERROR_CORRECT_L 10 4 = Ok qr0 →
  add_data qr0 url = Ok qr1 →
  make qr1 true = Ok qr2 →
  make_image qr2 "black" "white" = Ok img →
  save img out (files w) = (Ok tt, fs) →
  generate_qr_code url out w =
    (Ok tt,
     mkWorld fs
       (stdout w ++ ["Generating QR code for: " +:+ url;
                     "Successfully saved QR code to " +:+ out])
       (sys_argv w) (sys_path w)
       (lib_log w ++ ((λ c, (c, None)) <$> lib_calls url out))).
Proof.
  intros Hnew Hadd Hmake Himg Hsave. unfold_generate.
  rewrite Hnew; cbn. rewrite Hadd; cbn. rewrite Hmake; cbn.
  rewrite Himg; cbn. rewrite Hsave; cbn.
  unfold set_stdout, log_call, set_lib_log, set_files; cbn.
  by rewrite <- !app_assoc.
Qed.

(** Conversely, a run that completes went through all five calls. *)
Lemma generate_qr_code_inv url out w w' :
  generate_qr_code url out w = (Ok tt, w') →
  ∃ qr0 qr1 qr2 img fs,
    QRCode_new 1 ERROR_CORRECT_L 10 4 = Ok qr0 ∧
    add_data qr0 url = Ok qr1 ∧
    make qr1 true = Ok qr2 ∧
    make_image qr2 "black" "white" = Ok img ∧
    save img out (files w) = (Ok tt, fs) ∧
    files w' = fs.
Proof.
  generate_cases; intros Heq; simplify_eq.
  eexists _, _, _, _, _. by split_and!.
Qed.

End Generate.

Section GenerateClaims.
Context {L : QRLibrary}.

(** C4.  Whatever the arguments and the world, the part of the call log
    that a run of [generate_qr_code] adds begins with the constructor call
    [QRCode(version=1, error_correction=ERROR_CORRECT_L, box_size=10,
    border=4)]; every constructor call in it has exactly these arguments and
    every [make_image] call in it asks for fill colour "black" on back
    colour "white".  The arguments [url] and [output_filename] occur in none
    of them. *)
Theorem encoder_configuration_fixed url output_filename w :
  ∃ es,
    lib_log (generate_qr_code url output_filename w).2 = lib_log w ++ es ∧
    (∃ o, head es = Some (CallQRCode 1 ERROR_CORRECT_L 10 4, o)) ∧
    (∀ v ec b bd o, (CallQRCode v ec b bd, o) ∈ es →
       v = 1 ∧ ec = ERROR_CORRECT_L ∧ b = 10 ∧ bd = 4) ∧
    (∀ fill back o, (CallMakeImage fill back, o) ∈ es →
       fill = "black" ∧ back = "white").
Proof.
  destruct (generate_qr_code_trace url output_filename w)
    as (n & c & Hc & Hlog & _).
  eexists; split; [exact Hlog|].
  assert (n < 5)%nat as Hn by (apply lookup_lt_Some in Hc; exact Hc).
  do 5 (destruct n as [|n]; [cbn in Hc; simplify_eq; cbn; split_and!;
    [eauto | intros * Hin | intros * Hin];
    repeat (apply elem_of_cons in Hin as [Hin|Hin]; simplify_eq);
    try done; by apply elem_of_nil in Hin|]).
  lia.
Qed.

(** C7.  For every pair of arguments, the empty string included, a run
    reaches the collaborator: the constructor call is always logged, and
    when it succeeds the next call is [add_data] with the target exactly as
    received.  When the run raises, the exception is the one the last logged
    call to the collaborator raised: none originates in [generate_qr_code]
    itself. *)
Theorem no_validation_before_library url output_filename w :
  (∃ o rest,
     lib_log (generate_qr_code url output_filename w).2 =
       lib_log w ++ (CallQRCode 1 ERROR_CORRECT_L 10 4, o) :: rest ∧
     (o = None → ∃ o' rest', rest = (CallAddData url, o') :: rest')) ∧
  (∀ e, (generate_qr_code url output_filename w).1 = Raise e →
     ∃ c pre,
       lib_log (generate_qr_code url output_filename w).2 =
         pre ++ [(c, Some e)]).
Proof.
  split.
  - generate_cases; rewrite <- ?app_assoc; cbn;
      eexists _, _; (split; [reflexivity|]); intros; simplify_eq; eauto.
  - intros e.
    destruct (generate_qr_code_trace url output_filename w)
      as (n & c & _ & Hlog & _).
    intros Hr. rewrite Hr in Hlog. cbn in Hlog.
    rewrite Hlog, app_assoc. eauto.
Qed.

(** C3.  Every failure inside [generate_qr_code] reaches the caller as the
    exception the collaborator raised.  For every target, path and world:
    - the calls logged by the run are those of [lib_calls] in source order,
      each made once, all but the last having succeeded, and the outcome of
      the run is the outcome of the last call (no retry, no recovery);
    - whichever of the five calls raises -- the constructor, [add_data],
      [make], [make_image] or [save] -- the run raises that same exception;
    - a run that raises has printed the opening line and nothing else (no
      error message of the procedure's own);
    - run as a script, the process ends with status 0 when the run of
      [main] completes and with status 1 when it raises, in the world the
      run left. *)
Theorem failure_propagates_uncaught url output_filename w :
  let r := generate_qr_code url output_filename w in
  (∃ n c,
     lib_calls url output_filename !! n = Some c ∧
     lib_log r.2 =
       lib_log w ++
       ((λ c, (c, None)) <$> take n (lib_calls url output_filename)) ++
       [(c, outcome r.1)] ∧
     (r.1 = Ok tt → n = 4%nat)) ∧
  (∀ e, QRCode_new 1 ERROR_CORRECT_L 10 4 = Raise e → r.1 = Raise e) ∧
  (∀ qr0 e,
     QRCode_new 1 ERROR_CORRECT_L 10 4 = Ok qr0 →
     add_data qr0 url = Raise e → r.1 = Raise e) ∧
  (∀ qr0 qr1 e,
     QRCode_new 1 ERROR_CORRECT_L 10 4 = Ok qr0 →
     add_data qr0 url = Ok qr1 →
     make qr1 true = Raise e → r.1 = Raise e) ∧
  (∀ qr0 qr1 qr2 e,
     QRCode_new 1 ERROR_CORRECT_L 10 4 = Ok qr0 →
     add_data qr0 url = Ok qr1 →
     make qr1 true = Ok qr2 →
     make_image qr2 "black" "white" = Raise e → r.1 = Raise e) ∧
  (∀ img e,
     rendered url img →
     (save img output_filename (files w)).1 = Raise e → r.1 = Raise e) ∧
  (∀ e, r.1 = Raise e →
        stdout r.2 = stdout w ++ ["Generating QR code for: " +:+ url]) ∧
  (url = "https://irishlab.io" → output_filename = "website_qr.png" →
   run_script w = (match r.1 with Ok _ => 0 | Raise _ => 1 end, r.2)).
Proof.
  intros r. subst r. split_and!.
  - apply generate_qr_code_trace.
  - intros e Hnew. unfold_generate. by rewrite Hnew.
  - intros qr0 e Hnew Hadd. unfold_generate.
    rewrite Hnew; cbn. by rewrite Hadd.
  - intros qr0 qr1 e Hnew Hadd Hmake. unfold_generate.
    rewrite Hnew; cbn. rewrite Hadd; cbn. by rewrite Hmake.
  - intros qr0 qr1 qr2 e Hnew Hadd Hmake Himg. unfold_generate.
    rewrite Hnew; cbn. rewrite Hadd; cbn. rewrite Hmake; cbn.
    by rewrite Himg.
  - intros img e (qr0 & qr1 & qr2 & Hnew & Hadd & Hmake & Himg) Hsave.
    unfold_generate.
    rewrite Hnew; cbn. rewrite Hadd; cbn. rewrite Hmake; cbn.
    rewrite Himg; cbn.
    destruct (save img output_filename (files w)) as [res fs].
    cbn in Hsave. by subst res.
  - intros e. generate_cases; intros Hr; by simplify_eq.
  - intros -> ->. unfold run_script, main_module, main; cbn.
    by destruct (generate_qr_code "https://irishlab.io" "website_qr.png" w)
      as [[[]|e] w'].
Qed.

End GenerateClaims.

Section Postcondition.
Context {L : QRLibrary}.
Hypothesis HS : SaveContract L.

Lemma rendered_functional url img1 img2 :
  rendered url img1 → rendered url img2 → img1 = img2.
Proof.
  intros (a0 & a1 & a2 & Ha0 & Ha1 & Ha2 & Ha)
         (b0 & b1 & b2 & Hb0 & Hb1 & Hb2 & Hb).
  congruence.
Qed.

(** After a completed run the output file holds the serialised image, and
    the log has grown by the five calls. *)
Lemma generate_qr_code_content url out w w' :
  generate_qr_code url out w = (Ok tt, w') →
  ∃ img,
    rendered url img ∧
    files w' !! out = Some (image_bytes img) ∧
    lib_log w' = lib_log w ++ ((λ c, (c, None)) <$> lib_calls url out).
Proof.
  intros Hrun.
  destruct (generate_qr_code_inv _ _ _ _ Hrun)
    as (qr0 & qr1 & qr2 & img & fs & H0 & H1 & H2 & H3 & Hsave & Hfs).
  exists img. split_and!.
  - by exists qr0, qr1, qr2.
  - rewrite Hfs. by eapply save_writes.
  - rewrite (generate_qr_code_returns _ _ _ _ _ _ _ _ H0 H1 H2 H3 Hsave)
      in Hrun.
    clear Hfs. by injection Hrun as <-.
Qed.

(** A completed run leaves a non-empty file at the output path. *)
Lemma completed_run_file_nonempty url out w w' :
  generate_qr_code url out w = (Ok tt, w') → file_nonempty w' out.
Proof.
  intros Hrun.
  destruct (generate_qr_code_content _ _ _ _ Hrun) as (img & _ & Hf & _).
  exists (image_bytes img). split; [done|].
  pose proof (image_bytes_nonempty L HS img) as Hne.
  destruct (image_bytes img); [done | cbn; lia].
Qed.

(** C1.  Given the collaborator's contract for [save], whenever
    [generate_qr_code(target, output_path)] returns, a file exists at
    [output_path] and its size is greater than zero.  (This holds for every
    target and path for which the call returns, in particular for non-empty
    targets and writable paths.) *)
Theorem generate_qr_code_writes_nonempty_file url output_filename w w' :
  generate_qr_code url output_filename w = (Ok tt, w') →
  ∃ content,
    files w' !! output_filename = Some content ∧ (0 < length content)%nat.
Proof.
  intros Hrun.
  destruct (generate_qr_code_content _ _ _ _ Hrun) as (img & _ & Hfile & _).
  exists (image_bytes img). split; [exact Hfile|].
  pose proof (image_bytes_nonempty L HS img) as Hne.
  destruct (image_bytes img) as [|b bs]; [done|].
  cbn. lia.
Qed.

(** C2.  When two calls of [generate_qr_code] in sequence with the same
    arguments both return, the first leaves a non-empty file at the output
    path, the second goes through the five calls again, [save] on the same
    path included, and leaves a non-empty file there too: exactly the
    serialised image, which is also what the first call had written. *)
Theorem generate_qr_code_twice url output_filename w w2 :
  (generate_qr_code url output_filename;;
   generate_qr_code url output_filename) w = (Ok tt, w2) →
  ∃ w1,
    generate_qr_code url output_filename w = (Ok tt, w1) ∧
    generate_qr_code url output_filename w1 = (Ok tt, w2) ∧
    file_nonempty w1 output_filename ∧
    file_nonempty w2 output_filename ∧
    files w2 !! output_filename = files w1 !! output_filename ∧
    (∃ img, rendered url img ∧
            files w2 !! output_filename = Some (image_bytes img)) ∧
    lib_log w2 =
      lib_log w ++
      ((λ c, (c, None)) <$>
         (lib_calls url output_filename ++ lib_calls url output_filename)).
Proof.
  cbv [mbind M_bind].
  destruct (generate_qr_code url output_filename w) as [[[]|e] w1] eqn:H1;
    [|intros; simplify_eq].
  intros H2. exists w1.
  destruct (generate_qr_code_content _ _ _ _ H1) as (i1 & Hi1 & Hf1 & Hl1).
  destruct (generate_qr_code_content _ _ _ _ H2) as (i2 & Hi2 & Hf2 & Hl2).
  rewrite (rendered_functional _ _ _ Hi2 Hi1) in Hf2.
  split_and!; try done.
  - by eapply completed_run_file_nonempty.
  - by eapply completed_run_file_nonempty.
  - by rewrite Hf1, Hf2.
  - by exists i1.
  - by rewrite Hl2, Hl1, fmap_app, app_assoc.
Qed.

(** C10.  Two completed runs with the same arguments leave the same bytes
    at the output path, whatever the two worlds they started from: the
    content is a function of the target and the constants. *)
Theorem generate_qr_code_deterministic url output_filename w1 w2 w1' w2' :
  generate_qr_code url output_filename w1 = (Ok tt, w1') →
  generate_qr_code url output_filename w2 = (Ok tt, w2') →
  is_Some (files w1' !! output_filename) ∧
  files w1' !! output_filename = files w2' !! output_filename.
Proof.
  intros H1 H2.
  destruct (generate_qr_code_content _ _ _ _ H1) as (i1 & Hi1 & Hf1 & _).
  destruct (generate_qr_code_content _ _ _ _ H2) as (i2 & Hi2 & Hf2 & _).
  rewrite (rendered_functional _ _ _ Hi2 Hi1) in Hf2.
  rewrite Hf1, Hf2. eauto.
Qed.

End Postcondition.

(** * The entry point *)

Section EntryPoint.
Context {L : QRLibrary}.

(** [generate_qr_code] neither reads nor writes [sys.argv]. *)
Lemma generate_qr_code_argv_frame url out argv w :
  generate_qr_code url out (set_sys_argv argv w) =
  ((generate_qr_code url out w).1,
   set_sys_argv argv (generate_qr_code url out w).2).
Proof. by generate_cases. Qed.

(** C6.  Every run of the entry point is the call
    [generate_qr_code("https://irishlab.io", "website_qr.png")]: the calls
    it logs are those of [lib_calls] at these two literals, its outcome and
    effects are the same whatever [sys.argv] holds, and the script does
    nothing besides. *)
Theorem main_uses_constant_literals w :
  main w = generate_qr_code "https://irishlab.io" "website_qr.png" w ∧
  (∃ n c,
     lib_calls "https://irishlab.io" "website_qr.png" !! n = Some c ∧
     lib_log (main w).2 =
       lib_log w ++
       ((λ c, (c, None)) <$>
          take n (lib_calls "https://irishlab.io" "website_qr.png")) ++
       [(c, outcome (main w).1)]) ∧
  (∀ argv,
     main (set_sys_argv argv w) = ((main w).1, set_sys_argv argv (main w).2)) ∧
  run_script w = (exit_status (main w).1, (main w).2).
Proof.
  split_and!.
  - reflexivity.
  - destruct (generate_qr_code_trace "https://irishlab.io" "website_qr.png" w)
      as (n & c & Hc & Hlog & _).
    by exists n, c.
  - intros argv. apply generate_qr_code_argv_frame.
  - unfold run_script, main_module; cbn. by destruct (main w).
Qed.

End EntryPoint.

(** * The smoke test *)

Section SmokeTest.
Context {L : QRLibrary}.

(** [if os.path.exists(p): os.remove(p)] always completes and leaves no
    file at [p]. *)
Lemma remove_if_exists_run p w :
  if_ (os_path_exists p) (os_remove p) w =
  (Ok tt, set_files (delete p (files w)) w).
Proof.
  unfold if_, os_path_exists, os_remove. cbv [mbind M_bind mret M_ret].
  destruct (files w !! p) as [content|] eqn:Hp; cbn.
  - by rewrite Hp.
  - rewrite delete_id by done. by destruct w.
Qed.

(** C5.  The test first removes "test_qr.png", so the procedure is called
    with "https://example.com" and that name in a world [w0] without the
    file.  Its verdict is the exception of the call if the call raised, the
    first assertion's failure if no file is there afterwards, the second's
    if the file is empty, and success otherwise.  On each of these paths the
    world the test leaves is the one the call left with the file removed. *)
Theorem smoke_test_contract w :
  let filename := "test_qr.png" in
  let w0 := set_files (delete filename (files w)) w in
  let g := generate_qr_code "https://example.com" filename w0 in
  let t := test_generate_qr_code w in
  files w0 !! filename = None ∧
  files t.2 !! filename = None ∧
  t.2 = set_files (delete filename (files g.2)) g.2 ∧
  t.1 = match g.1 with
        | Raise e => Raise e
        | Ok _ =>
            match files g.2 !! filename with
            | None =>
                Raise (Exn "AssertionError"
                           "QR code image file was not created")
            | Some content =>
                if 0 <? Z.of_nat (length content) then Ok tt
                else Raise (Exn "AssertionError"
                                "QR code image file is empty")
            end
        end.
Proof.
  intros filename w0 g t.
  assert (t = (match g.1 with
               | Raise e => Raise e
               | Ok _ =>
                   match files g.2 !! filename with
                   | None =>
                       Raise (Exn "AssertionError"
                                  "QR code image file was not created")
                   | Some content =>
                       if 0 <? Z.of_nat (length content) then Ok tt
                       else Raise (Exn "AssertionError"
                                       "QR code image file is empty")
                   end
               end, set_files (delete filename (files g.2)) g.2)) as Ht.
  { subst t. unfold test_generate_qr_code.
    cbv [mbind M_bind]. rewrite remove_if_exists_run.
    unfold try_finally. cbv [mbind M_bind].
    fold filename w0 g.
    destruct g as [[[]|e] w1]; cbn.
    - destruct (files w1 !! filename) as [content|] eqn:Hf; cbn.
      + unfold os_path_getsize. rewrite Hf.
        destruct (0 <? Z.of_nat (length content)); cbn;
          by rewrite remove_if_exists_run.
      + by rewrite remove_if_exists_run.
    - by rewrite remove_if_exists_run. }
  rewrite Ht; cbn. split_and!; try done; apply lookup_delete_eq.
Qed.

End SmokeTest.

(** * Loading the test module *)

Section TestModuleLoad.
Context {R : PythonRuntime}.

(** C9.  The module body of [test_main.py] completes exactly when [os],
    [sys] and [main] can be imported with [sys.path] as it is on entry; the
    entry for the [src] directory is appended only after that, so which
    directory it names has no influence on the outcome, and a failed load
    leaves [sys.path] as it was. *)
Theorem import_precedes_path_append __file__ w :
  let r := test_main_module __file__ w in
  (r.1 = Ok tt ↔
     ∀ name, name ∈ ["os"; "sys"; "main"] →
             import_outcome (sys_path w) (files w) name = None) ∧
  (r.1 = Ok tt →
     r.2 = set_sys_path (sys_path w ++ [src_directory __file__]) w) ∧
  (r.1 ≠ Ok tt → r.2 = w) ∧
  (∀ other_file, (test_main_module other_file w).1 = r.1).
Proof.
  unfold test_main_module, import_, sys_path_append.
  cbv [mbind M_bind]; cbn.
  destruct (import_outcome (sys_path w) (files w) "os") eqn:Hos;
    [|destruct (import_outcome (sys_path w) (files w) "sys") eqn:Hsys;
      [|destruct (import_outcome (sys_path w) (files w) "main") eqn:Hmain]];
    cbn; (split_and!; [split | ..]); try done.
  - intros H. specialize (H "os"). rewrite Hos in H.
    discriminate H. set_solver.
  - intros H. specialize (H "sys"). rewrite Hsys in H.
    discriminate H. set_solver.
  - intros H. specialize (H "main"). rewrite Hmain in H.
    discriminate H. set_solver.
  - intros _ name Hin.
    repeat (apply elem_of_cons in Hin as [->|Hin]; [done|]).
    by apply elem_of_nil in Hin.
Qed.

End TestModuleLoad.

(** * Fit sizing *)

Section Fit.
Context {L : QRLibrary}.
Hypothesis HF : FitContract L.
Hypothesis HS : SaveContract L.

(** C8, as amended.  For a target whose payload does not fit version 1 but
    fits some version [v] the library supports, [make(fit=True)] does not
    fail and leaves the encoder at a version larger than 1; when rendering
    and saving then succeed, the run completes and the output file exists
    and is non-empty. *)
Theorem fit_selects_larger_version url output_filename w qr0 qr1 v :
  QRCode_new 1 ERROR_CORRECT_L 10 4 = Ok qr0 →
  add_data qr0 url = Ok qr1 →
  payload_fits qr1 1 = false →
  1 ≤ v →
  payload_fits qr1 v = true →
  (∀ qr2, make qr1 true = Ok qr2 →
          ∃ img, make_image qr2 "black" "white" = Ok img) →
  (∀ img, (save img output_filename (files w)).1 = Ok tt) →
  ∃ qr2 w',
    make qr1 true = Ok qr2 ∧
    1 < qr_version qr2 ∧
    generate_qr_code url output_filename w = (Ok tt, w') ∧
    ∃ content,
      files w' !! output_filename = Some content ∧ (0 < length content)%nat.
Proof.
  intros Hnew Hadd Hover Hv Hfits Hrender Hwritable.
  assert (qr_version qr1 = 1) as Hv1.
  { rewrite (add_data_version L HF _ _ _ Hadd).
    exact (new_version L HF _ _ _ _ _ Hnew). }
  destruct (make_fit L HF qr1 v) as (qr2 & Hmake & Hle & Hfit2);
    [lia | done |].
  destruct (Hrender qr2 Hmake) as [img Himg].
  specialize (Hwritable img).
  destruct (save img output_filename (files w)) as [r fs] eqn:Hsave.
  cbn in Hwritable; subst r.
  pose proof (generate_qr_code_returns _ _ _ _ _ _ _ _
                Hnew Hadd Hmake Himg Hsave) as Hrun.
  eexists qr2, _. split_and!; [done | | exact Hrun |].
  - assert (qr_version qr2 ≠ 1) by (intros Heq; congruence). lia.
  - eapply (completed_run_file_nonempty HS), Hrun.
Qed.

End Fit.

(** * The model meets the contracts *)

Lemma model_save_contract : SaveContract Model.library.
Proof.
  split.
  - intros img p fs fs'. cbn. unfold Model.write.
    destruct (String.eqb p ""); intros Heq; simplify_eq.
    apply lookup_insert_eq.
  - intros img. cbn. unfold Model.bytes_of, Model.signature. done.
Qed.

Lemma model_fit_contract : FitContract Model.library.
Proof.
  split; cbn.
  - intros v ec b bd qr. unfold Model.new.
    repeat case_match; intros; by simplify_eq.
  - intros qr qr' s. unfold Model.add. intros; by simplify_eq.
  - intros qr v Hle Hfits. unfold Model.mk, Model.best_fit.
    assert (1 ≤ v ≤ 40) as Hrange.
    { unfold Model.fits in Hfits.
      apply andb_prop in Hfits as [Hfits _].
      apply andb_prop in Hfits as [? ?]. lia. }
    destruct (list_find_elem_of (λ x, Is_true (Model.fits qr x))
                (seqZ (Model.version qr) (41 - Model.version qr)) v)
      as [[i v'] Hfind].
    { apply elem_of_seqZ. lia. }
    { by apply Is_true_true. }
    rewrite Hfind; cbn.
    apply list_find_Some in Hfind as (Hlook & Hv' & _).
    apply lookup_seqZ in Hlook as [-> _].
    eexists; split_and!; [done | cbn; lia |].
    cbn. by apply Is_true_true.
Qed.

(** * Runs of the model *)

(** The default run: the call completes and the file holds the signature
    and the 19 bytes of the target. *)
Lemma generate_qr_code_writes_nonempty_file_witness :
  (@generate_qr_code Model.library
     "https://irishlab.io" "website_qr.png" fresh_world).1 = Ok tt ∧
  ∃ content,
    files (@generate_qr_code Model.library
             "https://irishlab.io" "website_qr.png" fresh_world).2
      !! "website_qr.png" = Some content ∧
    (0 < length content)%nat.
Proof.
  split; [reflexivity|].
  apply (generate_qr_code_writes_nonempty_file model_save_contract
           "https://irishlab.io" "website_qr.png" fresh_world).
  vm_compute. reflexivity.
Defined.

(** Two runs in a row over an earlier file. *)
Lemma generate_qr_code_twice_witness :
  let run :=
    @generate_qr_code Model.library "https://irishlab.io" "website_qr.png" in
  let w2 := ((run;; run) used_world).2 in
  (run;; run) used_world = (Ok tt, w2) ∧
  ∃ w1,
    run used_world = (Ok tt, w1) ∧
    run w1 = (Ok tt, w2) ∧
    file_nonempty w1 "website_qr.png" ∧
    file_nonempty w2 "website_qr.png" ∧
    files w2 !! "website_qr.png" = files w1 !! "website_qr.png" ∧
    (∃ img, @rendered Model.library "https://irishlab.io" img ∧
            files w2 !! "website_qr.png" = Some (Model.bytes_of img)) ∧
    lib_log w2 =
      lib_log used_world ++
      ((λ c, (c, None)) <$>
         (lib_calls "https://irishlab.io" "website_qr.png" ++
          lib_calls "https://irishlab.io" "website_qr.png")).
Proof.
  intros run w2.
  assert ((run;; run) used_world = (Ok tt, w2)) as Hrun
    by (vm_compute; reflexivity).
  split; [exact Hrun|].
  exact (generate_qr_code_twice model_save_contract
           "https://irishlab.io" "website_qr.png" used_world w2 Hrun).
Defined.

(** The same target written from two different worlds. *)
Lemma generate_qr_code_deterministic_witness :
  (@generate_qr_code Model.library
     "https://irishlab.io" "website_qr.png" fresh_world).1 = Ok tt ∧
  (@generate_qr_code Model.library
     "https://irishlab.io" "website_qr.png" used_world).1 = Ok tt ∧
  is_Some
    (files (@generate_qr_code Model.library
              "https://irishlab.io" "website_qr.png" fresh_world).2
       !! "website_qr.png") ∧
  files (@generate_qr_code Model.library
           "https://irishlab.io" "website_qr.png" fresh_world).2
    !! "website_qr.png" =
  files (@generate_qr_code Model.library
           "https://irishlab.io" "website_qr.png" used_world).2
    !! "website_qr.png".
Proof.
  split; [reflexivity|]. split; [reflexivity|].
  apply (generate_qr_code_deterministic model_save_contract
           "https://irishlab.io" "website_qr.png" fresh_world used_world);
    vm_compute; reflexivity.
Defined.

(** The default run on a read-only file system: the first four calls
    succeed, [save] raises, and so the run raises the same exception after
    five calls, nothing is printed after the opening line, and the script
    exits with status 1. *)
Lemma failure_propagates_uncaught_witness :
  (@save Model.read_only_library
     (Model.Img 2 10 4 "black" "white" ["https://irishlab.io"])
     "website_qr.png" (files fresh_world)).1 =
    Raise (Exn "PermissionError" "website_qr.png") ∧
  (@main Model.read_only_library fresh_world).1 =
    Raise (Exn "PermissionError" "website_qr.png") ∧
  lib_log (@main Model.read_only_library fresh_world).2 =
    [ (CallQRCode 1 ERROR_CORRECT_L 10 4, None);
      (CallAddData "https://irishlab.io", None);
      (CallMake true, None);
      (CallMakeImage "black" "white", None);
      (CallSave "website_qr.png",
       Some (Exn "PermissionError" "website_qr.png")) ] ∧
  stdout (@main Model.read_only_library fresh_world).2 =
    ["Generating QR code for: https://irishlab.io"] ∧
  @run_script Model.read_only_library fresh_world =
    (1, (@main Model.read_only_library fresh_world).2).
Proof.
  destruct (@failure_propagates_uncaught Model.read_only_library
              "https://irishlab.io" "website_qr.png" fresh_world)
    as ((n & c & Hc & Hlog & _) & _ & _ & _ & _ & Hsave & Hout & Hexit).
  assert ((@main Model.read_only_library fresh_world).1 =
          Raise (Exn "PermissionError" "website_qr.png")) as Hraise.
  { apply (Hsave (Model.Img 2 10 4 "black" "white" ["https://irishlab.io"])).
    - by exists (Model.QR 1 ERROR_CORRECT_L 10 4 []),
                (Model.QR 1 ERROR_CORRECT_L 10 4 ["https://irishlab.io"]),
                (Model.QR 2 ERROR_CORRECT_L 10 4 ["https://irishlab.io"]).
    - reflexivity. }
  split_and!.
  - reflexivity.
  - exact Hraise.
  - unfold main in Hlog |- *. rewrite Hlog.
    unfold main in Hraise. rewrite Hraise.
    assert (n < 5)%nat as Hn by (apply lookup_lt_Some in Hc; exact Hc).
    assert (n = 4%nat) as ->.
    { assert (length (lib_log (@generate_qr_code Model.read_only_library
                "https://irishlab.io" "website_qr.png" fresh_world).2) = 5%nat)
        as Hlen by (vm_compute; reflexivity).
      rewrite Hlog in Hlen. cbn in Hlen.
      rewrite length_app, length_fmap, length_take in Hlen.
      cbn in Hlen. lia. }
    cbn in Hc. by simplify_eq.
  - exact (Hout _ Hraise).
  - rewrite (Hexit eq_refl eq_refl). unfold main in Hraise.
    by rewrite Hraise.
Defined.

(** A 30-byte target: too long for version 1 (17 bytes), held by version 2
    (32 bytes). *)
Lemma fit_selects_larger_version_witness :
  Model.fits (Model.QR 1 ERROR_CORRECT_L 10 4
                ["https://example.com/a/long/path"]) 1 = false ∧
  ∃ qr2 w',
    Model.mk (Model.QR 1 ERROR_CORRECT_L 10 4
                ["https://example.com/a/long/path"]) true = Ok qr2 ∧
    1 < Model.version qr2 ∧
    @generate_qr_code Model.library
      "https://example.com/a/long/path" "out.png" fresh_world = (Ok tt, w') ∧
    ∃ content,
      files w' !! "out.png" = Some content ∧ (0 < length content)%nat.
Proof.
  split; [reflexivity|].
  apply (fit_selects_larger_version model_fit_contract model_save_contract
           "https://example.com/a/long/path" "out.png" fresh_world
           (Model.QR 1 ERROR_CORRECT_L 10 4 [])
           (Model.QR 1 ERROR_CORRECT_L 10 4
              ["https://example.com/a/long/path"]) 2).
  - reflexivity.
  - reflexivity.
  - reflexivity.
  - lia.
  - reflexivity.
  - intros qr2 _. by eexists.
  - intros img. reflexivity.
Defined.

(** C8, as stated, fails: fit sizing is requested, the payload exceeds
    version 1, and the run still raises, because no version holds 3000
    bytes; nothing is written. *)
Lemma fit_cannot_hold_oversized_target :
  Model.fits (Model.QR 1 ERROR_CORRECT_L 10 4 [oversized_target]) 1 = false ∧
  (@generate_qr_code Model.library
     oversized_target "out.png" fresh_world).1 =
    Raise (Exn "DataOverflowError" "") ∧
  last (lib_log (@generate_qr_code Model.library
                   oversized_target "out.png" fresh_world).2) =
    Some (CallMake true, Some (Exn "DataOverflowError" "")) ∧
  files (@generate_qr_code Model.library
           oversized_target "out.png" fresh_world).2 !! "out.png" = None.
Proof. vm_compute. done. Qed.

(** The default run prints two lines and makes the five calls; the target
    has 19 bytes, two more than version 1 holds. *)
Example default_run :
  let r := @main Model.library fresh_world in
  r.1 = Ok tt ∧
  stdout r.2 = ["Generating QR code for: https://irishlab.io";
                "Successfully saved QR code to website_qr.png"] ∧
  lib_log r.2 =
    (λ c, (c, None)) <$> lib_calls "https://irishlab.io" "website_qr.png" ∧
  Model.best_fit (Model.QR 1 ERROR_CORRECT_L 10 4 ["https://irishlab.io"]) 1 =
    Some 2.
Proof. vm_compute. done. Qed.

(** An empty target is handed to the encoder like any other. *)
Example empty_target_run :
  let r := @generate_qr_code Model.library "" "out.png" fresh_world in
  r.1 = Ok tt ∧
  lib_log r.2 = (λ c, (c, None)) <$> lib_calls "" "out.png" ∧
  files r.2 !! "out.png" = Some Model.signature.
Proof. vm_compute. done. Qed.

(** The smoke test over a leftover file: it passes and leaves none. *)
Example smoke_test_passes :
  let w := mkWorld {[ "test_qr.png" := [] ]} [] [] [] [] in
  let t := @test_generate_qr_code Model.library w in
  t.1 = Ok tt ∧ files t.2 = ∅.
Proof. vm_compute. done. Qed.

(** The smoke test on a read-only file system: the call raises, the
    exception is the test's verdict, and no file is left. *)
Example smoke_test_call_fails :
  let t := @test_generate_qr_code Model.read_only_library fresh_world in
  t.1 = Raise (Exn "PermissionError" "test_qr.png") ∧
  files t.2 !! "test_qr.png" = None.
Proof. vm_compute. done. Qed.

(** Loading the test module when [main.py] lies only in the directory the
    module is about to append: the import fails and nothing is appended.
    With that directory already on the path the load completes. *)
Example test_module_needs_main_on_path :
  let fs : gmap string (list byte) :=
    {[ "/repo/scripts/src/main.py" := [] ]} in
  let file := "/repo/scripts/tests/test_main.py" in
  @src_directory Model.runtime file = "/repo/scripts/src" ∧
  @test_main_module Model.runtime file
    (mkWorld fs [] [] ["/repo/scripts/tests"] []) =
    (Raise (Exn "ModuleNotFoundError" "main"),
     mkWorld fs [] [] ["/repo/scripts/tests"] []) ∧
  (@test_main_module Model.runtime file
     (mkWorld fs [] [] ["/repo/scripts/src"] [])).1 = Ok tt.
Proof. vm_compute. done. Qed.

(** * Further properties of the two scripts *)

Section Effects.
Context {L : QRLibrary}.

(** X1.  The file system changes in a run of [generate_qr_code] only
    through one [save] of the rendered image at the output path: either the
    encoder produced an image, and then the outcome of the run and the file
    system it leaves are those of that [save]; or it produced none, and then
    the run raises and the file system is as it was. *)
Theorem files_change_only_through_save url output_filename w :
  (∃ img,
     rendered url img ∧
     (generate_qr_code url output_filename w).1 =
       (save img output_filename (files w)).1 ∧
     files (generate_qr_code url output_filename w).2 =
       (save img output_filename (files w)).2) ∨
  ((∀ img, ¬ rendered url img) ∧
   (∃ e, (generate_qr_code url output_filename w).1 = Raise e) ∧
   files (generate_qr_code url output_filename w).2 = files w).
Proof.
  generate_cases.
  1,2: left; exists img; rewrite Hsave; cbn; split_and!; try done;
       by exists qr, qr0, qr1.
  all: right; split_and!; [|by eexists|done];
       intros i (a0 & a1 & a2 & Ha0 & Ha1 & Ha2 & Ha); congruence.
Qed.

(** X2.  A run always prints the opening line naming the target, and prints
    the line "Successfully saved QR code to <path>" exactly when it
    completes; it prints nothing else. *)
Theorem success_line_iff_completed url output_filename w :
  stdout (generate_qr_code url output_filename w).2 =
    stdout w ++
    ("Generating QR code for: " +:+ url) ::
    match (generate_qr_code url output_filename w).1 with
    | Ok _ => ["Successfully saved QR code to " +:+ output_filename]
    | Raise _ => []
    end.
Proof.
  generate_cases; try reflexivity.
  by rewrite <- app_assoc.
Qed.

End Effects.

Section Frame.
Context {L : QRLibrary}.
Hypothesis HFr : SaveFrame L.

(** Whatever the outcome of a run, paths other than the output path keep
    their content. *)
Lemma generate_qr_code_other_paths url out w q :
  q ≠ out →
  files (generate_qr_code url out w).2 !! q = files w !! q.
Proof.
  intros Hq. generate_cases; try reflexivity.
  all: match goal with
       | H : save ?i _ _ = _ |- _ =>
           pose proof (HFr i out (files w) q Hq) as Hfr;
           rewrite H in Hfr; exact Hfr
       end.
Qed.

(** X3.  With a library whose [save] touches only the path it is given,
    [generate_qr_code] changes the file system at most at the output path,
    whether it completes or raises: apart from that path, the file system
    after the run is the one before it. *)
Theorem generate_qr_code_touches_only_output url output_filename w :
  delete output_filename (files (generate_qr_code url output_filename w).2) =
  delete output_filename (files w).
Proof.
  apply map_eq. intros q.
  destruct (decide (q = output_filename)) as [->|Hq].
  - by rewrite !lookup_delete_eq.
  - rewrite !lookup_delete_ne by done.
    by apply generate_qr_code_other_paths.
Qed.

End Frame.

Section SmokeTestEffects.
Context {L : QRLibrary}.

(** One run of the smoke test, as an equation: the verdict and the world it
    leaves, in terms of the call it makes after the first clean-up. *)
Lemma test_generate_qr_code_run w :
  let filename := "test_qr.png" in
  let g := generate_qr_code "https://example.com" filename
             (set_files (delete filename (files w)) w) in
  test_generate_qr_code w =
  (match g.1 with
   | Raise e => Raise e
   | Ok _ =>
       match files g.2 !! filename with
       | None =>
           Raise (Exn "AssertionError" "QR code image file was not created")
       | Some content =>
           if 0 <? Z.of_nat (length content) then Ok tt
           else Raise (Exn "AssertionError" "QR code image file is empty")
       end
   end,
   set_files (delete filename (files g.2)) g.2).
Proof.
  intros filename g. unfold test_generate_qr_code.
  cbv [mbind M_bind]. rewrite remove_if_exists_run.
  unfold try_finally. cbv [mbind M_bind].
  fold filename g.
  destruct g as [[[]|e] w1]; cbn.
  - destruct (files w1 !! filename) as [content|] eqn:Hf; cbn.
    + unfold os_path_getsize. rewrite Hf.
      destruct (0 <? Z.of_nat (length content)); cbn;
        by rewrite remove_if_exists_run.
    + by rewrite remove_if_exists_run.
  - by rewrite remove_if_exists_run.
Qed.

(** X4.  With a library whose [save] touches only the path it is given, the
    smoke test leaves the file system as it found it except that
    "test_qr.png" is absent, on every exit path: a file of that name that
    was there before the test is lost, and no other path is affected. *)
Theorem smoke_test_leaves_only_scratch_removed (HFr : SaveFrame L) w :
  files (test_generate_qr_code w).2 = delete "test_qr.png" (files w).
Proof.
  rewrite test_generate_qr_code_run. cbn.
  apply map_eq. intros q.
  destruct (decide (q = "test_qr.png")) as [->|Hq].
  - by rewrite !lookup_delete_eq.
  - rewrite !lookup_delete_ne by done.
    rewrite (generate_qr_code_other_paths HFr) by done.
    cbn. by rewrite lookup_delete_ne.
Qed.

(** X5.  With a library that meets the [save] contract, neither assertion
    of the smoke test can fail: the verdict of the test is the outcome of
    the call it makes. *)
Theorem smoke_test_verdict_is_call_outcome (HS : SaveContract L) w :
  (test_generate_qr_code w).1 =
  (generate_qr_code "https://example.com" "test_qr.png"
     (set_files (delete "test_qr.png" (files w)) w)).1.
Proof.
  rewrite test_generate_qr_code_run. cbn.
  destruct (generate_qr_code "https://example.com" "test_qr.png"
              (set_files (delete "test_qr.png" (files w)) w))
    as [[[]|e] w1] eqn:Hg; cbn; [|done].
  destruct (completed_run_file_nonempty HS _ _ _ _ Hg)
    as (content & Hfile & Hlen).
  rewrite Hfile.
  destruct (Z.ltb_spec 0 (Z.of_nat (length content))); [done | lia].
Qed.

(** X6.  With a library that meets the [save] contract, a run of the script
    that exits with status 0 has left a non-empty "website_qr.png", and the
    last line it printed is the success line. *)
Theorem script_status_zero_means_file (HS : SaveContract L) w w' :
  run_script w = (0, w') →
  file_nonempty w' "website_qr.png" ∧
  last (stdout w') = Some "Successfully saved QR code to website_qr.png".
Proof.
  unfold run_script, main_module, main; cbn.
  destruct (generate_qr_code "https://irishlab.io" "website_qr.png" w)
    as [[[]|e] w1] eqn:Hg; cbn; intros Heq; [|discriminate Heq].
  injection Heq as <-. split.
  - by eapply completed_run_file_nonempty.
  - destruct (generate_qr_code_inv _ _ _ _ Hg)
      as (qr0 & qr1 & qr2 & img & fs & H0 & H1 & H2 & H3 & Hsave & _).
    rewrite (generate_qr_code_returns _ _ _ _ _ _ _ _ H0 H1 H2 H3 Hsave)
      in Hg.
    injection Hg as <-. cbn.
    change [?a; ?b] with ([a] ++ [b]). rewrite app_assoc.
    apply last_snoc.
Qed.

End SmokeTestEffects.

(** The model's writers touch only the path they are given. *)
Lemma model_save_frame : SaveFrame Model.library.
Proof.
  intros img p fs q Hq. cbn. unfold Model.write.
  destruct (String.eqb p ""); cbn; [done|].
  by apply lookup_insert_ne.
Qed.

Lemma generate_qr_code_touches_only_output_witness :
  delete "website_qr.png"
    (files (@generate_qr_code Model.library
              "https://irishlab.io" "website_qr.png" littered_world).2) =
  delete "website_qr.png" (files littered_world).
Proof.
  exact (generate_qr_code_touches_only_output model_save_frame
           "https://irishlab.io" "website_qr.png" littered_world).
Defined.

Lemma smoke_test_leaves_only_scratch_removed_witness :
  files (@test_generate_qr_code Model.library littered_world).2 =
  delete "test_qr.png" (files littered_world).
Proof.
  exact (smoke_test_leaves_only_scratch_removed model_save_frame
           littered_world).
Defined.

Lemma smoke_test_verdict_is_call_outcome_witness :
  (@test_generate_qr_code Model.library littered_world).1 =
  (@generate_qr_code Model.library "https://example.com" "test_qr.png"
     (set_files (delete "test_qr.png" (files littered_world))
        littered_world)).1.
Proof.
  exact (smoke_test_verdict_is_call_outcome model_save_contract
           littered_world).
Defined.

Lemma script_status_zero_means_file_witness :
  @run_script Model.library used_world =
    (0, (@main Model.library used_world).2) ∧
  file_nonempty (@main Model.library used_world).2 "website_qr.png" ∧
  last (stdout (@main Model.library used_world).2) =
    Some "Successfully saved QR code to website_qr.png".
Proof.
  assert (@run_script Model.library used_world =
          (0, (@main Model.library used_world).2)) as Hrun
    by (vm_compute; reflexivity).
  split; [exact Hrun|].
  exact (script_status_zero_means_file model_save_contract _ _ Hrun).
Defined.

(** The smoke test over the littered world: the leftover scratch file is
    gone, the unrelated file is intact. *)
Example smoke_test_on_littered_world :
  let t := @test_generate_qr_code Model.library littered_world in
  t.1 = Ok tt ∧
  files t.2 !! "test_qr.png" = None ∧
  files t.2 !! "notes.txt" = Some [x01; x02].
Proof. vm_compute. done. Qed.

Section ExactEffect.
Context {L : QRLibrary}.

(** X7.  With a library that meets the [save] contract and whose [save]
    touches only the path it is given, a completed run has exactly one
    effect on the file system: the serialised image of the target is stored
    at the output path, replacing whatever was there. *)
Theorem completed_run_stores_image
    (HS : SaveContract L) (HFr : SaveFrame L) url output_filename w w' :
  generate_qr_code url output_filename w = (Ok tt, w') →
  ∃ img,
    rendered url img ∧
    files w' = <[output_filename := image_bytes img]> (files w).
Proof.
  intros Hrun.
  destruct (generate_qr_code_content HS _ _ _ _ Hrun)
    as (img & Himg & Hfile & _).
  exists img. split; [exact Himg|].
  apply map_eq. intros q.
  destruct (decide (q = output_filename)) as [->|Hq].
  - by rewrite lookup_insert_eq.
  - rewrite lookup_insert_ne by done.
    pose proof (generate_qr_code_other_paths HFr url output_filename w q Hq)
      as Hother.
    by rewrite Hrun in Hother.
Qed.

End ExactEffect.

Lemma completed_run_stores_image_witness :
  @generate_qr_code Model.library
    "https://irishlab.io" "test_qr.png" littered_world =
    (Ok tt,
     (@generate_qr_code Model.library
        "https://irishlab.io" "test_qr.png" littered_world).2) ∧
  ∃ img,
    @rendered Model.library "https://irishlab.io" img ∧
    files (@generate_qr_code Model.library
             "https://irishlab.io" "test_qr.png" littered_world).2 =
      <["test_qr.png" := Model.bytes_of img]> (files littered_world).
Proof.
  assert (@generate_qr_code Model.library
            "https://irishlab.io" "test_qr.png" littered_world =
          (Ok tt,
           (@generate_qr_code Model.library
              "https://irishlab.io" "test_qr.png" littered_world).2))
    as Hrun by (vm_compute; reflexivity).
  split; [exact Hrun|].
  exact (completed_run_stores_image model_save_contract model_save_frame
           _ _ _ _ Hrun).
Defined.
